(** * The Image feature of [datasets] ([src/datasets/features/image.py])

    A shallow embedding of the module: the pyarrow extension type
    [_ImageExtensionType], the [Image] feature with [encode_example] and
    [decode_example], and the helpers [image_to_bytes] and
    [encode_list_of_images].

    Python objects are a small universe of values; exceptions are an error
    type; the open files and the calls made to the collaborators (the file
    opener [xopen] and the Pillow codec) are recorded in an explicit world
    that every effectful operation threads through. *)

From Stdlib Require Import ZArith List.
From Stdlib.Strings Require Import Byte.
From stdpp Require Import base option gmap strings list.

Set Warnings "-register-all,-clear-no-such-hyp".
Set Default Proof Using "Type".

(** ** Python values *)

(** A Pillow image whose pixel data is in memory: the raster (mode, size,
    pixel data) and the [format] attribute, which Pillow sets from the file
    an image was read from and leaves at [None] for an image made in
    memory. *)
Record PIL_Image := mkImage {
  im_format : option string;
  im_mode : string;
  im_size : nat * nat;
  im_data : list byte;
}.

(** The pixel content of an image: everything but the format metadata. *)
Definition pixel_content (i : PIL_Image) : string * (nat * nat) * list byte :=
  (im_mode i, im_size i, im_data i).

(** A numpy array, as far as this module can see it: shape, element type and
    the contiguous buffer behind it. *)
Record ndarray := mkArray {
  nd_shape : list nat;
  nd_dtype : string;
  nd_buffer : list byte;
}.

Inductive py_value :=
  | VNone
  | VInt (z : Z)
  | VStr (s : string)
  | VBytes (b : list byte)
  | VNdarray (a : ndarray)
  | VImage (i : PIL_Image)
  | VTuple (l : list py_value)
  | VDict (d : gmap string py_value).

(** [isinstance(value, T)] for the classes the module tests. *)
Definition isinstance_str (v : py_value) : bool :=
  match v with VStr _ => true | _ => false end.
Definition isinstance_bytes (v : py_value) : bool :=
  match v with VBytes _ => true | _ => false end.
Definition isinstance_ndarray (v : py_value) : bool :=
  match v with VNdarray _ => true | _ => false end.
Definition isinstance_dict (v : py_value) : bool :=
  match v with VDict _ => true | _ => false end.

(** [v == s] for a string literal [s]: a value that is not a [str] is not
    equal to it. *)
Definition py_eq_str (v : py_value) (s : string) : bool :=
  match v with VStr t => bool_decide (t = s) | _ => false end.

(** ** Exceptions *)

Inductive exn :=
  | ImportError (msg : string)
  | KeyError (key : string)
  | TypeError (msg : string)
  | ValueError (msg : string)
  | UnboundLocalError (name : string)
  | FileNotFoundError (path : string)
  | UnidentifiedImageError
  | OSError (msg : string).

Definition result (A : Type) : Type := exn + A.

Definition is_ok {A} (r : result A) : bool :=
  match r with inr _ => true | inl _ => false end.

Definition result_map {A B} (f : A → B) (r : result A) : result B :=
  match r with inr a => inr (f a) | inl e => inl e end.

(** The lookup and type errors of Python: [LookupError] (of which [KeyError]
    is a subclass) and [TypeError]. *)
Definition is_lookup_or_type_error (e : exn) : bool :=
  match e with KeyError _ | TypeError _ => true | _ => false end.

(** ** pyarrow storage types *)

Inductive DataType :=
  | pa_string
  | pa_binary
  | pa_struct (fields : list (string * DataType)).

(** ** [_ImageExtensionType] *)

(** Python classes that can stand at the head of a [__reduce__] pair. *)
Inductive pyclass :=
  | PyExtensionType_class
  | _ImageExtensionType_class.

(** An instance: its class (the logical tag), the attribute [storage_dtype]
    and the storage type given to [pa.PyExtensionType.__init__]. *)
Record _ImageExtensionType := mkExt {
  ext_class : pyclass;
  storage_dtype : py_value;
  storage_type : DataType;
}.

Module ImageExtensionType.

Definition __init__ (storage_dtype : py_value) : _ImageExtensionType :=
  let pa_storage_dtype :=
    if py_eq_str storage_dtype "string" then pa_string
    else if py_eq_str storage_dtype "bytes" then pa_binary
    else pa_struct [("path", pa_string); ("bytes", pa_binary)] in
  {| ext_class := _ImageExtensionType_class;
     storage_dtype := storage_dtype;
     storage_type := pa_storage_dtype |}.

Definition __reduce__ (self : _ImageExtensionType) : pyclass * list py_value :=
  (ext_class self, [storage_dtype self]).

(** What unpickling does with the pair of [__reduce__]: it calls the class
    on the argument tuple. [pa.PyExtensionType] itself wants a pyarrow
    storage type, which no value of this universe is. *)
Definition reconstruct (r : pyclass * list py_value) : result _ImageExtensionType :=
  match r with
  | (_ImageExtensionType_class, [v]) => inr (__init__ v)
  | (_ImageExtensionType_class, _) =>
      inl (TypeError "__init__() takes exactly one positional argument")
  | (PyExtensionType_class, _) =>
      inl (TypeError "storage_type must be a pyarrow DataType")
  end.

End ImageExtensionType.

(** ** The [Image] feature *)

Record Image := mkFeature {
  _storage_dtype : string;
  id : option string;
  _type : string;
}.

(** The dataclass defaults: [Image()]. *)
Definition Image_default : Image :=
  {| _storage_dtype := "string"; id := None; _type := "Image" |}.

Definition set_storage_dtype (self : Image) (s : string) : Image :=
  {| _storage_dtype := s; id := id self; _type := _type self |}.

Definition __call__ (self : Image) : _ImageExtensionType :=
  ImageExtensionType.__init__ (VStr (_storage_dtype self)).

(** [encode_example] mutates [self] and returns [value]: the feature after
    the call comes first, the returned object second. *)
Definition encode_example (self : Image) (value : py_value) : Image * py_value :=
  if isinstance_bytes value || isinstance_ndarray value then
    (set_storage_dtype self "bytes", value)
  else if isinstance_dict value then
    (set_storage_dtype self "struct", value)
  else
    (self, value).

(** ** The world: open streams and calls to the collaborators *)

(** A byte stream handed to the codec: a file opened by [xopen], known by its
    handle, or an in-memory [BytesIO]. *)
Inductive stream :=
  | FileStream (h : nat) (content : list byte)
  | MemStream (content : list byte).

Definition stream_content (s : stream) : list byte :=
  match s with FileStream _ c | MemStream c => c end.

(** An image as [PIL.Image.open] returns it. Opening is lazy: the header has
    been parsed (format, mode, size), the pixel data has not been read; it
    stays in the stream [fp], which the image keeps, and is read from there
    on first use. *)
Record ImageFile := mkImageFile {
  fp : stream;
  file_format : option string;
  file_mode : string;
  file_size : nat * nat;
}.

Definition opened (fp : stream) (i : PIL_Image) : ImageFile :=
  {| fp := fp; file_format := im_format i;
     file_mode := im_mode i; file_size := im_size i |}.

Inductive event :=
  | OpenFailed (path : string)
  | Acquired (h : nat) (path : string)
  | CodecOpened (s : stream) (ok : bool)
  | Released (h : nat).

Record world := mkWorld {
  live : gset nat;
  fresh : nat;
  trace : list event;
}.

Definition emit (e : event) (w : world) : world :=
  {| live := live w; fresh := fresh w; trace := trace w ++ [e] |}.

(** Handles are handed out in increasing order: every live one is below
    [fresh]. *)
Definition world_ok (w : world) : Prop :=
  ∀ h, h ∈ live w → h < fresh w.

(** Computations that may raise and that act on the world. *)
Definition M (A : Type) : Type := world → world * result A.

Definition ret {A} (a : A) : M A := λ w, (w, inr a).
Definition raise {A} (e : exn) : M A := λ w, (w, inl e).
Definition bind {A B} (m : M A) (k : A → M B) : M B :=
  λ w, match m w with
       | (w', inr a) => k a w'
       | (w', inl e) => (w', inl e)
       end.
Definition lift {A} (r : result A) : M A := λ w, (w, r).

Declare Scope py_scope.
Delimit Scope py_scope with py.
Notation "x <- m ;; k" := (bind m (λ x, k))
  (at level 100, m at next level, right associativity) : py_scope.
Notation "m ;;; k" := (bind m (λ _, k))
  (at level 100, right associativity) : py_scope.

(** The collaborators of the module, none of which is part of it: whether
    [import PIL.Image] succeeds, the file opener of
    [utils.streaming_download_manager], what Pillow's reader makes of the
    bytes of a stream (header and pixel data), and what [Image.save] writes
    for an image in a format. *)
Record collaborators := mkCollab {
  PIL_installed : bool;
  xopen : string → string → result (list byte);
  PIL_Image_open : list byte → result PIL_Image;
  PIL_Image_save : PIL_Image → string → result (list byte);
}.

(** [BytesIO(initial_bytes)]: a bytes-like object fills the buffer, [None]
    leaves it empty, anything else is a [TypeError]. *)
Definition BytesIO (initial_bytes : py_value) : result stream :=
  match initial_bytes with
  | VBytes b => inr (MemStream b)
  | VNdarray a => inr (MemStream (nd_buffer a))
  | VNone => inr (MemStream [])
  | _ => inl (TypeError "a bytes-like object is required")
  end.

(** [d[key]] on a dict. *)
Definition getitem (d : gmap string py_value) (key : string) : result py_value :=
  match d !! key with
  | Some v => inr v
  | None => inl (KeyError key)
  end.

Section Decode.

Context (env : collaborators).

(** [PIL.Image.open(fp)]: reading from a file that is no longer open is a
    [ValueError]; otherwise the codec identifies what the stream holds and
    the image returned has its header and keeps [fp] for its pixel data. *)
Definition PIL_open (fp : stream) : M ImageFile :=
  λ w,
    match fp with
    | FileStream h _ =>
        if bool_decide (h ∈ live w) then
          let r := PIL_Image_open env (stream_content fp) in
          (emit (CodecOpened fp (is_ok r)) w, result_map (opened fp) r)
        else (w, inl (ValueError "I/O operation on closed file"))
    | MemStream _ =>
        let r := PIL_Image_open env (stream_content fp) in
        (emit (CodecOpened fp (is_ok r)) w, result_map (opened fp) r)
    end.

(** [image.load()], through which every use of the pixels of an opened
    image goes (reading them, converting, saving): the pixel data is read
    from the stream the image keeps. A file that has been closed cannot be
    read; an in-memory stream lives as long as the image. *)
Definition ImageFile_load (image : ImageFile) : M PIL_Image :=
  λ w,
    match fp image with
    | FileStream h content =>
        if bool_decide (h ∈ live w) then (w, PIL_Image_open env content)
        else (w, inl (ValueError "seek of closed file"))
    | MemStream content => (w, PIL_Image_open env content)
    end.

(** [with xopen(path, mode) as f: body]: if [xopen] raises there is no
    stream and the body does not run; otherwise the body runs on the open
    stream and the stream is closed when the block is left, by its end or
    by an exception, which then goes on to the caller. *)
Definition with_xopen {A} (path mode : string) (body : stream → M A) : M A :=
  λ w,
    match xopen env path mode with
    | inl e => (emit (OpenFailed path) w, inl e)
    | inr content =>
        let h := fresh w in
        let w1 := {| live := {[h]} ∪ live w; fresh := S h;
                     trace := trace w ++ [Acquired h path] |} in
        let '(w2, r) := body (FileStream h content) w1 in
        ({| live := live w2 ∖ {[h]}; fresh := fresh w2;
            trace := trace w2 ++ [Released h] |}, r)
    end.

(** The guarded [import PIL.Image] at the head of [decode_example]. *)
Definition import_PIL : M unit :=
  if PIL_installed env then ret tt
  else raise (ImportError "To support decoding images, please install 'Pillow'.").

(** [decode_example]. The local [image] is bound by whichever branch of
    the [if] chain runs; no branch runs for a value of another class, and
    [return image] then reads an unbound local. *)
Definition decode_example (self : Image) (value : py_value) : M ImageFile :=
  (import_PIL ;;;
   image <- match value with
            | VStr path =>
                with_xopen path "rb" (λ f, image <- PIL_open f ;; ret (Some image))
            | VBytes _ =>
                buf <- lift (BytesIO value) ;;
                image <- PIL_open buf ;;
                ret (Some image)
            | VDict d =>
                b <- lift (getitem d "bytes") ;;
                buf <- lift (BytesIO b) ;;
                image <- PIL_open buf ;;
                ret (Some image)
            | _ => ret None
            end ;;
   match image with
   | Some image => ret image
   | None => raise (UnboundLocalError "image")
   end)%py.

(** [image_to_bytes]: the buffer starts empty and holds what [save] wrote. *)
Definition image_to_bytes (image : PIL_Image) : result (list byte) :=
  match PIL_Image_save env image "PNG" with
  | inr written => inr ([] ++ written)
  | inl e => inl e
  end.

(** [encode_list_of_images]: the list comprehension stops at the first
    image that fails to encode. *)
Fixpoint encode_list_of_images (images : list PIL_Image) : result (list (list byte)) :=
  match images with
  | [] => inr []
  | image :: rest =>
      match image_to_bytes image with
      | inl e => inl e
      | inr b =>
          match encode_list_of_images rest with
          | inl e => inl e
          | inr bs => inr (b :: bs)
          end
      end
  end.

End Decode.

(** ** Reading a run of events *)

(** The streams a run of events leaves open: acquired and not released. *)
Fixpoint unreleased (held : list nat) (evs : list event) : list nat :=
  match evs with
  | [] => held
  | Acquired h _ :: evs => unreleased (h :: held) evs
  | Released h :: evs => unreleased (filter (λ k, k ≠ h) held) evs
  | _ :: evs => unreleased held evs
  end.

(** Events that touch no file: only codec calls on in-memory streams. *)
Definition in_memory_event (e : event) : bool :=
  match e with
  | CodecOpened (MemStream _) _ => true
  | _ => false
  end.

(** A step of the world that performs no external I/O. *)
Definition no_external_io (w w' : world) : Prop :=
  live w' = live w ∧ fresh w' = fresh w ∧
  ∃ evs, trace w' = trace w ++ evs ∧ forallb in_memory_event evs = true.

(** Pillow's PNG writer and reader lose no pixel of [i]. *)
Definition png_lossless_on (env : collaborators) (i : PIL_Image) : Prop :=
  ∃ b j, PIL_Image_save env i "PNG" = inr b ∧
         PIL_Image_open env b = inr j ∧
         pixel_content j = pixel_content i.

(** ** A small codec to run the definitions on

    One-pixel greyscale images, written as a magic byte and the pixel. As
    PNG the pixel is kept; any other format writes a blank pixel. An empty
    stream is no image, and the only file there is, is [photo.png]. *)
Module Toy.

Definition save (i : PIL_Image) (format : string) : result (list byte) :=
  match im_data i with
  | [p] =>
      if bool_decide (im_mode i = "L" ∧ im_size i = (1, 1)) then
        if bool_decide (format = "PNG") then inr [x89; p] else inr [xff; x00]
      else inl (OSError "cannot write mode")
  | _ => inl (OSError "cannot write mode")
  end.

Definition open (b : list byte) : result PIL_Image :=
  match b with
  | [x89; p] => inr (mkImage (Some "PNG") "L" (1, 1) [p])
  | [xff; p] => inr (mkImage (Some "JPEG") "L" (1, 1) [p])
  | _ => inl UnidentifiedImageError
  end.

Definition files (path mode : string) : result (list byte) :=
  if bool_decide (path = "photo.png") then inr [x89; x2a]
  else inl (FileNotFoundError path).

Definition env : collaborators :=
  {| PIL_installed := true; xopen := files;
     PIL_Image_open := open; PIL_Image_save := save |}.

(** The same, on a machine without Pillow. *)
Definition env_no_PIL : collaborators :=
  {| PIL_installed := false; xopen := files;
     PIL_Image_open := open; PIL_Image_save := save |}.

(** An image made in memory: it has no format yet. *)
Definition pixel : PIL_Image := mkImage None "L" (1, 1) [x2a].

(** A one-pixel CMYK image, which this writer, like Pillow's PNG writer,
    refuses. *)
Definition cmyk : PIL_Image := mkImage None "CMYK" (1, 1) [x00; x10; x20; x30].

Definition world0 : world := {| live := ∅; fresh := 0; trace := [] |}.

End Toy.

(** Records as the feature receives them: as an archive reader yields
    them (the same bytes under two paths), with [None] for the bytes, and
    with a path alone. *)
Definition record_a : gmap string py_value :=
  <["path" := VStr "a.png"]> (<["bytes" := VBytes [x89; x2a]]> ∅).
Definition record_b : gmap string py_value :=
  <["path" := VStr "missing/b.png"]> (<["bytes" := VBytes [x89; x2a]]> ∅).
Definition record_none : gmap string py_value :=
  <["path" := VStr "photo.png"]> (<["bytes" := VNone]> ∅).
Definition record_path_only : gmap string py_value :=
  <["path" := VStr "photo.png"]> ∅.

(** * Properties *)

(** ** [encode_example] *)

(** [encode_example] always hands back the object it was given. *)
Lemma encode_example_passthrough (self : Image) (v : py_value) :
  (encode_example self v).2 = v.
Proof.
  unfold encode_example.
  destruct (isinstance_bytes v || isinstance_ndarray v); [done|].
  by destruct (isinstance_dict v).
Qed.

(** It touches no field of the feature but [_storage_dtype]. *)
Lemma encode_example_frame (self : Image) (v : py_value) :
  id (encode_example self v).1 = id self ∧
  _type (encode_example self v).1 = _type self.
Proof.
  unfold encode_example.
  destruct (isinstance_bytes v || isinstance_ndarray v); [done|].
  by destruct (isinstance_dict v).
Qed.

(** C3. For every plain string and every feature, whatever its storage
    shape, [encode_example] returns the string unchanged and leaves the
    feature, and so [_storage_dtype], exactly as it was. *)
Theorem encode_example_str_unchanged (self : Image) (s : string) :
  encode_example self (VStr s) = (self, VStr s) ∧
  _storage_dtype (encode_example self (VStr s)).1 = _storage_dtype self.
Proof. split; reflexivity. Qed.

(** C4. For every bytes value, [encode_example] returns the bytes unchanged
    and sets [_storage_dtype] to ["bytes"]. *)
Theorem encode_example_bytes (self : Image) (b : list byte) :
  (encode_example self (VBytes b)).2 = VBytes b ∧
  _storage_dtype (encode_example self (VBytes b)).1 = "bytes".
Proof. split; reflexivity. Qed.

(** C5. For every dict, whatever its keys and whatever stands under
    [bytes], [encode_example] returns the dict unchanged and sets
    [_storage_dtype] to ["struct"]. The function has no access to the codec
    or to files: nothing is validated. *)
Theorem encode_example_dict (self : Image) (d : gmap string py_value) :
  (encode_example self (VDict d)).2 = VDict d ∧
  _storage_dtype (encode_example self (VDict d)).1 = "struct".
Proof. split; reflexivity. Qed.

(** C10. For every numpy array, [encode_example] sets [_storage_dtype] to
    ["bytes"] and returns the array itself: the result is still an
    [ndarray], not encoded image bytes. *)
Theorem encode_example_ndarray (self : Image) (a : ndarray) :
  (encode_example self (VNdarray a)).2 = VNdarray a ∧
  _storage_dtype (encode_example self (VNdarray a)).1 = "bytes" ∧
  isinstance_bytes (encode_example self (VNdarray a)).2 = false.
Proof. repeat split; reflexivity. Qed.

(** ** [_ImageExtensionType] *)

Lemma init_storage_type_string :
  storage_type (ImageExtensionType.__init__ (VStr "string")) = pa_string.
Proof. reflexivity. Qed.

Lemma init_storage_type_bytes :
  storage_type (ImageExtensionType.__init__ (VStr "bytes")) = pa_binary.
Proof. reflexivity. Qed.

Lemma init_storage_type_struct :
  storage_type (ImageExtensionType.__init__ (VStr "struct")) =
  pa_struct [("path", pa_string); ("bytes", pa_binary)].
Proof. reflexivity. Qed.

(** [__call__] depends on the feature through [_storage_dtype] only. *)
Lemma call_pure (f g : Image) :
  _storage_dtype f = _storage_dtype g → __call__ f = __call__ g.
Proof. unfold __call__. by intros ->. Qed.

(** C8. For every storage shape [s] (the three the feature uses, and any
    other string), [__reduce__] yields the class and the 1-tuple [(s,)], and
    reconstructing from that pair gives the very wrapper built directly
    with [s]: same class, same [storage_dtype], same physical type. *)
Theorem reduce_reconstruct (s : string) :
  ImageExtensionType.__reduce__ (ImageExtensionType.__init__ (VStr s)) =
    (_ImageExtensionType_class, [VStr s]) ∧
  ImageExtensionType.reconstruct
    (ImageExtensionType.__reduce__ (ImageExtensionType.__init__ (VStr s))) =
    inr (ImageExtensionType.__init__ (VStr s)) ∧
  ∀ rebuilt,
    ImageExtensionType.reconstruct
      (ImageExtensionType.__reduce__ (ImageExtensionType.__init__ (VStr s))) =
      inr rebuilt →
    storage_type rebuilt = storage_type (ImageExtensionType.__init__ (VStr s)) ∧
    ext_class rebuilt = _ImageExtensionType_class.
Proof.
  split; [reflexivity|]. split; [reflexivity|].
  intros rebuilt H. cbn in H. by inversion H.
Qed.

(** ** [decode_example]: what each branch runs *)

Section DecodeRuns.

Context (env : collaborators) (self : Image).

Lemma decode_example_no_PIL (v : py_value) (w : world) :
  PIL_installed env = false →
  decode_example env self v w =
    (w, inl (ImportError "To support decoding images, please install 'Pillow'.")).
Proof.
  intros H. unfold decode_example, bind, import_PIL. by rewrite H.
Qed.

(** The codec call on an in-memory stream. *)
Lemma PIL_open_mem (b : list byte) (w : world) :
  PIL_open env (MemStream b) w =
    (emit (CodecOpened (MemStream b) (is_ok (PIL_Image_open env b))) w,
     result_map (opened (MemStream b)) (PIL_Image_open env b)).
Proof. reflexivity. Qed.

Lemma decode_example_bytes_run (b : list byte) (w : world) :
  PIL_installed env = true →
  decode_example env self (VBytes b) w = PIL_open env (MemStream b) w.
Proof.
  intros H. unfold decode_example, bind, import_PIL, lift, ret, raise.
  rewrite H. cbn. by destruct (PIL_Image_open env b).
Qed.

Lemma decode_example_dict_run (d : gmap string py_value) (w : world) :
  PIL_installed env = true →
  decode_example env self (VDict d) w =
    match d !! "bytes" with
    | None => (w, inl (KeyError "bytes"))
    | Some v =>
        match BytesIO v with
        | inl e => (w, inl e)
        | inr buf => PIL_open env buf w
        end
    end.
Proof.
  intros H. unfold decode_example, bind, import_PIL, lift, ret, raise, getitem.
  rewrite H. cbn. destruct (d !! "bytes") as [v|]; [|done].
  destruct (BytesIO v) as [e|buf]; [done|].
  by destruct (PIL_open env buf w) as [w' [e|j]].
Qed.

Lemma decode_example_str_failed (path : string) (w : world) (e : exn) :
  PIL_installed env = true →
  xopen env path "rb" = inl e →
  decode_example env self (VStr path) w = (emit (OpenFailed path) w, inl e).
Proof.
  intros H Hx. unfold decode_example, bind, import_PIL, with_xopen, ret, raise.
  rewrite H. cbn. by rewrite Hx.
Qed.

Lemma decode_example_str_opened (path : string) (w : world) (c : list byte) :
  PIL_installed env = true →
  xopen env path "rb" = inr c →
  decode_example env self (VStr path) w =
    ({| live := ({[fresh w]} ∪ live w) ∖ {[fresh w]};
        fresh := S (fresh w);
        trace := trace w ++
                 [Acquired (fresh w) path;
                  CodecOpened (FileStream (fresh w) c) (is_ok (PIL_Image_open env c));
                  Released (fresh w)] |},
     result_map (opened (FileStream (fresh w) c)) (PIL_Image_open env c)).
Proof.
  intros H Hx. unfold decode_example, bind, import_PIL, with_xopen, ret, raise.
  rewrite H. cbn. rewrite Hx. unfold PIL_open. cbn.
  rewrite bool_decide_eq_true_2 by set_solver.
  destruct (PIL_Image_open env c); cbn; by rewrite <- !app_assoc.
Qed.

(** An image that [PIL_open] returned is bound to the stream it was opened
    on. *)
Lemma result_map_opened_inr (s : stream) (r : result PIL_Image) (image : ImageFile) :
  result_map (opened s) r = inr image →
  fp image = s ∧ ∃ i, r = inr i ∧ image = opened s i.
Proof. destruct r as [e|i]; cbn; intros [= <-]; eauto. Qed.

(** Loading from an in-memory stream never meets a closed file. *)
Lemma ImageFile_load_mem (image : ImageFile) (b : list byte) (w : world) :
  fp image = MemStream b →
  ImageFile_load env image w = (w, PIL_Image_open env b).
Proof. unfold ImageFile_load. by intros ->. Qed.

(** Loading from a file that has been closed raises. *)
Lemma ImageFile_load_closed (image : ImageFile) (h : nat) (c : list byte) (w : world) :
  fp image = FileStream h c →
  h ∉ live w →
  ImageFile_load env image w = (w, inl (ValueError "seek of closed file")).
Proof.
  unfold ImageFile_load. intros -> Hh. by rewrite bool_decide_eq_false_2.
Qed.

End DecodeRuns.

(** ** The definitions at work *)

Example decode_photo :
  decode_example Toy.env Image_default (VStr "photo.png") Toy.world0 =
    ({| live := ∅; fresh := 1;
        trace := [Acquired 0 "photo.png";
                  CodecOpened (FileStream 0 [x89; x2a]) true;
                  Released 0] |},
     inr (mkImageFile (FileStream 0 [x89; x2a]) (Some "PNG") "L" (1, 1))).
Proof. reflexivity. Qed.

Example decode_missing_file :
  decode_example Toy.env Image_default (VStr "nowhere.png") Toy.world0 =
    (emit (OpenFailed "nowhere.png") Toy.world0,
     inl (FileNotFoundError "nowhere.png")).
Proof. reflexivity. Qed.

Example decode_not_an_image :
  decode_example Toy.env Image_default (VBytes [x00; x01; x02]) Toy.world0 =
    (emit (CodecOpened (MemStream [x00; x01; x02]) false) Toy.world0,
     inl UnidentifiedImageError).
Proof. reflexivity. Qed.

Example decode_without_PIL :
  (decode_example Toy.env_no_PIL Image_default (VBytes [x89; x2a]) Toy.world0).2 =
    inl (ImportError "To support decoding images, please install 'Pillow'.").
Proof. reflexivity. Qed.

(** The round trip keeps the pixels, not the object: the image read back
    carries the format it was read from. *)
Example roundtrip_sets_format :
  image_to_bytes Toy.env Toy.pixel = inr [x89; x2a] ∧
  (decode_example Toy.env Image_default (VBytes [x89; x2a]) Toy.world0).2 =
    inr (mkImageFile (MemStream [x89; x2a]) (Some "PNG") "L" (1, 1)) ∧
  (ImageFile_load Toy.env
     (mkImageFile (MemStream [x89; x2a]) (Some "PNG") "L" (1, 1)) Toy.world0).2 =
    inr (mkImage (Some "PNG") "L" (1, 1) [x2a]) ∧
  im_format Toy.pixel = None.
Proof. repeat split. Qed.

Example encode_list_of_images_empty :
  encode_list_of_images Toy.env [] = inr [].
Proof. reflexivity. Qed.

Example encode_list_of_images_two :
  encode_list_of_images Toy.env [Toy.pixel; Toy.pixel] =
    inr [[x89; x2a]; [x89; x2a]].
Proof. reflexivity. Qed.

(** Encoding leaves the shape of the last value seen. *)
Example encode_sequence :
  _storage_dtype
    (encode_example (encode_example Image_default (VDict record_a)).1
                    (VStr "photo.png")).1 = "struct".
Proof. reflexivity. Qed.

(** ** [decode_example]: the claims *)

Lemma no_external_io_refl (w : world) : no_external_io w w.
Proof.
  repeat split. exists []. by rewrite app_nil_r.
Qed.

Lemma no_external_io_PIL_open_mem (env : collaborators) (b : list byte) (w : world) :
  no_external_io w (PIL_open env (MemStream b) w).1.
Proof.
  repeat split. by exists [CodecOpened (MemStream b) (is_ok (PIL_Image_open env b))].
Qed.

Lemma BytesIO_mem (v : py_value) (buf : stream) :
  BytesIO v = inr buf → ∃ b, buf = MemStream b.
Proof. destruct v; cbn; intros [=]; eauto. Qed.

(** Decoding a dict touches no file, whatever the dict holds. *)
Lemma decode_example_dict_no_external_io
    (env : collaborators) (self : Image) (d : gmap string py_value) (w : world) :
  no_external_io w (decode_example env self (VDict d) w).1.
Proof.
  destruct (PIL_installed env) eqn:HP.
  - rewrite decode_example_dict_run by done.
    destruct (d !! "bytes") as [v|]; [|apply no_external_io_refl].
    destruct (BytesIO v) as [e|buf] eqn:Hv; [apply no_external_io_refl|].
    destruct (BytesIO_mem _ _ Hv) as [b ->].
    apply no_external_io_PIL_open_mem.
  - rewrite decode_example_no_PIL by done. apply no_external_io_refl.
Qed.

(** What decoding bytes comes to, with Pillow importable: one codec call on
    an in-memory stream of these bytes; the image returned is bound to that
    stream, and its pixels load to what the codec reads from the bytes. *)
Lemma decode_example_bytes_outcome
    (env : collaborators) (self : Image) (b : list byte) (w : world) :
  PIL_installed env = true →
  decode_example env self (VBytes b) w =
    (emit (CodecOpened (MemStream b) (is_ok (PIL_Image_open env b))) w,
     result_map (opened (MemStream b)) (PIL_Image_open env b)) ∧
  ∀ image w',
    decode_example env self (VBytes b) w = (w', inr image) →
    ImageFile_load env image w' = (w', PIL_Image_open env b).
Proof.
  intros HP. rewrite decode_example_bytes_run, PIL_open_mem by done.
  split; [done|]. intros image w' [= _ Himage].
  apply result_map_opened_inr in Himage as [Hfp _].
  by apply ImageFile_load_mem.
Qed.

(** C7. For every input that is not a string, not bytes and not a dict,
    [decode_example] raises: [return image] reads a local that no branch has
    bound ([UnboundLocalError]), or the import of Pillow has already failed.
    No image is returned and the world is untouched. *)
Theorem decode_example_other_raises
    (env : collaborators) (self : Image) (v : py_value) (w : world) :
  isinstance_str v = false →
  isinstance_bytes v = false →
  isinstance_dict v = false →
  decode_example env self v w =
    (w, inl (if PIL_installed env then UnboundLocalError "image"
             else ImportError "To support decoding images, please install 'Pillow'.")).
Proof.
  intros Hs Hb Hd.
  destruct (PIL_installed env) eqn:HP; [|by apply decode_example_no_PIL].
  unfold decode_example, bind, import_PIL, ret, raise. rewrite HP.
  by destruct v.
Qed.

Lemma decode_example_other_raises_witness :
  isinstance_str (VInt 3) = false ∧
  isinstance_bytes (VInt 3) = false ∧
  isinstance_dict (VInt 3) = false ∧
  decode_example Toy.env Image_default (VInt 3) Toy.world0 =
    (Toy.world0, inl (UnboundLocalError "image")).
Proof.
  do 3 (split; [reflexivity|]).
  apply (decode_example_other_raises Toy.env Image_default (VInt 3) Toy.world0);
    reflexivity.
Defined.

(** C6. For every dict given to [decode_example]: the outcome depends on the
    dict through its [bytes] entry only (any other dict with the same entry,
    whatever its [path], decodes alike); when that entry holds bytes, the
    call does exactly what decoding those bytes does, which is to hand them
    to the codec in an in-memory stream, and the image returned loads its
    pixels from that stream, as the codec reads them from the bytes; and
    nothing is opened, acquired or released on the way. *)
Theorem decode_example_dict_bytes_only
    (env : collaborators) (self : Image) (d : gmap string py_value) (w : world) :
  (∀ d' : gmap string py_value,
     d' !! "bytes" = d !! "bytes" →
     decode_example env self (VDict d') w = decode_example env self (VDict d) w) ∧
  (∀ b, d !! "bytes" = Some (VBytes b) →
     decode_example env self (VDict d) w = decode_example env self (VBytes b) w ∧
     (PIL_installed env = true →
      decode_example env self (VDict d) w =
        (emit (CodecOpened (MemStream b) (is_ok (PIL_Image_open env b))) w,
         result_map (opened (MemStream b)) (PIL_Image_open env b)) ∧
      ∀ image w',
        decode_example env self (VDict d) w = (w', inr image) →
        ImageFile_load env image w' = (w', PIL_Image_open env b))) ∧
  no_external_io w (decode_example env self (VDict d) w).1.
Proof.
  split; [|split; [|apply decode_example_dict_no_external_io]].
  - intros d' Hd'. destruct (PIL_installed env) eqn:HP.
    + rewrite !decode_example_dict_run by done. by rewrite Hd'.
    + by rewrite !decode_example_no_PIL.
  - intros b Hb.
    assert (decode_example env self (VDict d) w =
            decode_example env self (VBytes b) w) as Heq.
    { destruct (PIL_installed env) eqn:HP.
      - rewrite decode_example_dict_run, decode_example_bytes_run by done.
        by rewrite Hb.
      - by rewrite !decode_example_no_PIL. }
    split; [done|]. intros HP. rewrite Heq.
    by apply decode_example_bytes_outcome.
Qed.

Lemma decode_example_dict_bytes_only_witness :
  decode_example Toy.env Image_default (VDict record_b) Toy.world0 =
    decode_example Toy.env Image_default (VDict record_a) Toy.world0 ∧
  decode_example Toy.env Image_default (VDict record_a) Toy.world0 =
    (emit (CodecOpened (MemStream [x89; x2a]) true) Toy.world0,
     inr (mkImageFile (MemStream [x89; x2a]) (Some "PNG") "L" (1, 1))) ∧
  ImageFile_load Toy.env
    (mkImageFile (MemStream [x89; x2a]) (Some "PNG") "L" (1, 1))
    (emit (CodecOpened (MemStream [x89; x2a]) true) Toy.world0) =
    (emit (CodecOpened (MemStream [x89; x2a]) true) Toy.world0,
     inr (mkImage (Some "PNG") "L" (1, 1) [x2a])) ∧
  no_external_io Toy.world0
    (decode_example Toy.env Image_default (VDict record_a) Toy.world0).1.
Proof.
  destruct (decode_example_dict_bytes_only Toy.env Image_default record_a Toy.world0)
    as (Hsame & Hbytes & Hio).
  destruct (Hbytes [x89; x2a] eq_refl) as [_ Hrun].
  destruct (Hrun eq_refl) as [Hdec Hload].
  split; [apply Hsame; reflexivity|].
  split; [exact Hdec|].
  split; [apply Hload; exact Hdec | exact Hio].
Defined.

(** C9, as stated, fails: with [None] under [bytes] the subscript succeeds
    and [BytesIO(None)] is an empty stream, so the codec is called and the
    error is the codec's own (here, as with Pillow, that the stream is no
    image), which is neither a lookup error nor a type error. *)
Lemma decode_example_dict_None_not_lookup_error :
  PIL_installed Toy.env = true ∧
  record_none !! "bytes" = Some VNone ∧
  decode_example Toy.env Image_default (VDict record_none) Toy.world0 =
    (emit (CodecOpened (MemStream []) false) Toy.world0,
     inl UnidentifiedImageError) ∧
  is_lookup_or_type_error UnidentifiedImageError = false.
Proof. repeat split. Qed.

(** C9, amended. With Pillow importable: a dict with no [bytes] key makes
    [decode_example] raise [KeyError('bytes')] with nothing else done; a
    dict with [None] under [bytes] has the codec called on an empty
    in-memory stream, and the outcome is the codec's; in both cases no file
    is opened, so [path] is never used. *)
Theorem decode_example_dict_without_bytes
    (env : collaborators) (self : Image) (d : gmap string py_value) (w : world) :
  PIL_installed env = true →
  (d !! "bytes" = None →
   decode_example env self (VDict d) w = (w, inl (KeyError "bytes"))) ∧
  (d !! "bytes" = Some VNone →
   decode_example env self (VDict d) w =
     (emit (CodecOpened (MemStream []) (is_ok (PIL_Image_open env []))) w,
      result_map (opened (MemStream [])) (PIL_Image_open env []))) ∧
  no_external_io w (decode_example env self (VDict d) w).1.
Proof.
  intros HP. split; [|split; [|apply decode_example_dict_no_external_io]].
  - intros Hd. rewrite decode_example_dict_run by done. by rewrite Hd.
  - intros Hd. rewrite decode_example_dict_run by done. by rewrite Hd.
Qed.

Lemma decode_example_dict_without_bytes_witness :
  PIL_installed Toy.env = true ∧
  decode_example Toy.env Image_default (VDict record_path_only) Toy.world0 =
    (Toy.world0, inl (KeyError "bytes")) ∧
  no_external_io Toy.world0
    (decode_example Toy.env Image_default (VDict record_path_only) Toy.world0).1.
Proof.
  split; [reflexivity|].
  destruct (decode_example_dict_without_bytes
              Toy.env Image_default record_path_only Toy.world0 eq_refl)
    as (Hmissing & _ & Hio).
  split; [apply Hmissing; reflexivity | exact Hio].
Defined.

Lemma world0_ok : world_ok Toy.world0.
Proof. intros h Hh. cbn in Hh. by apply not_elem_of_empty in Hh. Qed.

(** C2, which the code does not keep. For every path that [xopen] opens and
    whose content the codec identifies as an image: the stream is acquired,
    the codec's call returns an image bound to it, and the stream is
    released at the end of the [with] block, so the streams live after the
    call are those live before. But the call of the codec has read the
    header only: the image returned holds the released stream, and loading
    its pixels raises [ValueError] on the closed file. The stream is
    released before the image is materialized, not after. The bytes of the
    same file, decoded through the bytes branch, give an image that loads. *)
Theorem decode_example_str_released_before_load
    (env : collaborators) (self : Image) (path : string) (w : world)
    (c : list byte) (i : PIL_Image) :
  world_ok w →
  PIL_installed env = true →
  xopen env path "rb" = inr c →
  PIL_Image_open env c = inr i →
  ∃ w' image,
    decode_example env self (VStr path) w = (w', inr image) ∧
    fp image = FileStream (fresh w) c ∧
    trace w' = trace w ++ [Acquired (fresh w) path;
                           CodecOpened (FileStream (fresh w) c) true;
                           Released (fresh w)] ∧
    live w' = live w ∧
    (fresh w ∉ live w') ∧
    ImageFile_load env image w' = (w', inl (ValueError "seek of closed file")) ∧
    ∃ w2 image2,
      decode_example env self (VBytes c) w = (w2, inr image2) ∧
      ImageFile_load env image2 w2 = (w2, inr i).
Proof.
  intros Hw HP Hx Hi.
  assert (fresh w ∉ live w) as Hfresh by (intros Hin; apply Hw in Hin; lia).
  rewrite (decode_example_str_opened env self path w c) by done.
  rewrite decode_example_bytes_run, PIL_open_mem by done.
  rewrite Hi. cbn [result_map is_ok].
  eexists _, _. split; [reflexivity|]. cbn [fp opened live trace].
  split; [done|]. split; [done|]. split; [set_solver|]. split; [set_solver|].
  split.
  - apply (ImageFile_load_closed env _ (fresh w) c); [done|]. cbn. set_solver.
  - eexists _, _. split; [reflexivity|].
    rewrite (ImageFile_load_mem env _ c) by done. by rewrite Hi.
Qed.

Lemma decode_example_str_released_before_load_witness :
  world_ok Toy.world0 ∧
  xopen Toy.env "photo.png" "rb" = inr [x89; x2a] ∧
  ∃ w' image,
    decode_example Toy.env Image_default (VStr "photo.png") Toy.world0 =
      (w', inr image) ∧
    live w' = live Toy.world0 ∧
    ImageFile_load Toy.env image w' = (w', inl (ValueError "seek of closed file")).
Proof.
  split; [exact world0_ok|]. split; [reflexivity|].
  destruct (decode_example_str_released_before_load
              Toy.env Image_default "photo.png" Toy.world0
              [x89; x2a] (mkImage (Some "PNG") "L" (1, 1) [x2a])
              world0_ok eq_refl eq_refl eq_refl)
    as (w' & image & Hdec & _ & _ & Hlive & _ & Hload & _).
  by exists w', image.
Defined.

(** ** The PNG round trip *)

(** What [image_to_bytes] returns is what the codec wrote as PNG. *)
Lemma image_to_bytes_is_save (env : collaborators) (i : PIL_Image) :
  image_to_bytes env i = PIL_Image_save env i "PNG".
Proof. unfold image_to_bytes. by destruct (PIL_Image_save env i "PNG"). Qed.

(** C1, as stated, fails: not every image can be written as PNG. For a
    CMYK image the writer raises (Pillow's does: it cannot write mode CMYK
    as PNG), [image_to_bytes] raises with it, and there are no bytes to
    decode. *)
Lemma image_to_bytes_cmyk_raises :
  PIL_installed Toy.env = true ∧
  image_to_bytes Toy.env Toy.cmyk = inl (OSError "cannot write mode") ∧
  is_ok (image_to_bytes Toy.env Toy.cmyk) = false.
Proof. repeat split. Qed.

(** C1, amended. With Pillow importable, the round trip through the module
    is that of the codec and nothing else: [image_to_bytes] returns what the
    codec writes for the image as PNG, or raises what it raises; and the
    bytes, encoded and decoded, load to the pixel content of the image
    exactly when the codec's PNG writer and reader lose no pixel of it. *)
Theorem image_to_bytes_decode_roundtrip
    (env : collaborators) (self : Image) (i : PIL_Image) (w : world) :
  PIL_installed env = true →
  image_to_bytes env i = PIL_Image_save env i "PNG" ∧
  (png_lossless_on env i ↔
   ∃ b image w' j,
     image_to_bytes env i = inr b ∧
     decode_example env (encode_example self (VBytes b)).1
                        (encode_example self (VBytes b)).2 w = (w', inr image) ∧
     ImageFile_load env image w' = (w', inr j) ∧
     pixel_content j = pixel_content i).
Proof.
  intros HP. split; [apply image_to_bytes_is_save|].
  rewrite image_to_bytes_is_save. split.
  - intros (b & j & Hsave & Hopen & Hpix).
    exists b, (opened (MemStream b) j),
      (emit (CodecOpened (MemStream b) true) w), j.
    split; [done|]. rewrite encode_example_passthrough.
    rewrite decode_example_bytes_run, PIL_open_mem by done.
    rewrite Hopen. split; [done|].
    rewrite (ImageFile_load_mem env _ b) by done. by rewrite Hopen.
  - intros (b & image & w' & j & Hsave & Hdec & Hload & Hpix).
    exists b, j. split; [done|]. split; [|done].
    rewrite encode_example_passthrough in Hdec.
    destruct (decode_example_bytes_outcome env
                (encode_example self (VBytes b)).1 b w HP) as [_ Hl].
    rewrite (Hl image w' Hdec) in Hload. by inversion Hload.
Qed.

Lemma toy_png_lossless_on_pixel : png_lossless_on Toy.env Toy.pixel.
Proof.
  exists [x89; x2a], (mkImage (Some "PNG") "L" (1, 1) [x2a]).
  repeat split.
Qed.

Lemma image_to_bytes_decode_roundtrip_witness :
  PIL_installed Toy.env = true ∧
  ∃ b image w' j,
    image_to_bytes Toy.env Toy.pixel = inr b ∧
    decode_example Toy.env (encode_example Image_default (VBytes b)).1
                           (encode_example Image_default (VBytes b)).2
                           Toy.world0 = (w', inr image) ∧
    ImageFile_load Toy.env image w' = (w', inr j) ∧
    pixel_content j = pixel_content Toy.pixel.
Proof.
  split; [reflexivity|].
  exact (proj1 (proj2 (image_to_bytes_decode_roundtrip
                         Toy.env Image_default Toy.pixel Toy.world0 eq_refl))
               toy_png_lossless_on_pixel).
Defined.

(** * Further properties of the module *)

(** ** [encode_example] on other values and over successive calls *)

(** A value that is neither bytes, nor an array, nor a dict (a Pillow
    image, [None], a number, a tuple, as well as a string) is handed back
    and the feature is left exactly as it was: an image object given to
    [encode_example] is not turned into bytes. *)
Theorem encode_example_other_unchanged (self : Image) (v : py_value) :
  isinstance_bytes v = false →
  isinstance_ndarray v = false →
  isinstance_dict v = false →
  encode_example self v = (self, v).
Proof.
  intros Hb Ha Hd. unfold encode_example. by rewrite Hb, Ha, Hd.
Qed.

Lemma encode_example_other_unchanged_witness :
  isinstance_bytes (VImage Toy.pixel) = false ∧
  isinstance_ndarray (VImage Toy.pixel) = false ∧
  isinstance_dict (VImage Toy.pixel) = false ∧
  encode_example Image_default (VImage Toy.pixel) =
    (Image_default, VImage Toy.pixel).
Proof.
  do 3 (split; [reflexivity|]).
  apply (encode_example_other_unchanged Image_default (VImage Toy.pixel));
    reflexivity.
Defined.

(** One call moves [_storage_dtype] to ["bytes"] or ["struct"] or leaves it. *)
Lemma encode_example_shape_cases (self : Image) (v : py_value) :
  _storage_dtype (encode_example self v).1 = _storage_dtype self ∨
  _storage_dtype (encode_example self v).1 = "bytes" ∨
  _storage_dtype (encode_example self v).1 = "struct".
Proof.
  unfold encode_example.
  destruct (isinstance_bytes v || isinstance_ndarray v); [by right; left|].
  destruct (isinstance_dict v); [by right; right | by left].
Qed.

(** Over any run of calls on one feature, each on the feature the previous
    call left: [id] and [_type] are never touched, and [_storage_dtype] is
    the one the feature started with, ["bytes"] or ["struct"]. *)
Theorem encode_example_calls_invariant (self : Image) (values : list py_value) :
  id (fold_left (λ f v, (encode_example f v).1) values self) = id self ∧
  _type (fold_left (λ f v, (encode_example f v).1) values self) = _type self ∧
  (_storage_dtype (fold_left (λ f v, (encode_example f v).1) values self) =
     _storage_dtype self ∨
   _storage_dtype (fold_left (λ f v, (encode_example f v).1) values self) = "bytes" ∨
   _storage_dtype (fold_left (λ f v, (encode_example f v).1) values self) = "struct").
Proof.
  induction values as [|v values IH] using rev_ind; [by repeat split; left|].
  rewrite fold_left_app. cbn [fold_left].
  destruct IH as (Hid & Hty & Hshape).
  destruct (encode_example_frame (fold_left (λ f v, (encode_example f v).1) values self) v)
    as [Hid' Hty'].
  split; [congruence|]. split; [congruence|].
  destruct (encode_example_shape_cases
              (fold_left (λ f v, (encode_example f v).1) values self) v)
    as [Hs|[Hs|Hs]]; rewrite Hs; tauto.
Qed.

(** The shape a value with a shape of its own sets does not depend on the
    feature it is encoded on. *)
Lemma encode_example_shape_of_value (f g : Image) (v : py_value) :
  isinstance_bytes v || isinstance_ndarray v || isinstance_dict v = true →
  _storage_dtype (encode_example f v).1 = _storage_dtype (encode_example g v).1.
Proof.
  unfold encode_example.
  destruct (isinstance_bytes v || isinstance_ndarray v); [done|].
  by destruct (isinstance_dict v).
Qed.

(** The last write wins. After a run of calls, [_storage_dtype] is the shape
    of the last value that was bytes, an array or a dict, whatever the
    feature started with and whatever was encoded before; the strings (and
    other values without a shape) encoded after it do not change it. So the
    field tells the shape of one value, not of all values encoded. *)
Theorem encode_example_last_shape_wins
    (self : Image) (before after : list py_value) (v : py_value) :
  isinstance_bytes v || isinstance_ndarray v || isinstance_dict v = true →
  Forall (λ u, isinstance_bytes u || isinstance_ndarray u || isinstance_dict u = false)
         after →
  _storage_dtype
    (fold_left (λ f u, (encode_example f u).1) (before ++ v :: after) self) =
  _storage_dtype (encode_example Image_default v).1.
Proof.
  intros Hv Hafter. rewrite fold_left_app. cbn [fold_left].
  set (f := fold_left (λ f u, (encode_example f u).1) before self).
  rewrite (encode_example_shape_of_value Image_default f v Hv).
  generalize (encode_example f v).1. clear f.
  induction Hafter as [|u after Hu _ IH]; intros g; [done|].
  cbn [fold_left]. rewrite IH. f_equal.
  unfold encode_example.
  destruct (isinstance_bytes u || isinstance_ndarray u); [done|].
  by destruct (isinstance_dict u).
Qed.

Lemma encode_example_last_shape_wins_witness :
  _storage_dtype
    (fold_left (λ f u, (encode_example f u).1)
       ([VDict record_a; VStr "a.png"] ++
        VBytes [x89; x2a] :: [VStr "photo.png"; VNone])
       Image_default) = "bytes".
Proof.
  apply (encode_example_last_shape_wins Image_default
           [VDict record_a; VStr "a.png"] [VStr "photo.png"; VNone]
           (VBytes [x89; x2a])).
  - reflexivity.
  - repeat constructor.
Defined.

(** ** The wrapper a feature builds *)

(** Two features build equal wrappers exactly when they have the same
    [_storage_dtype]: [__call__] reads no other field, and the wrapper
    keeps the shape it was built with. *)
Theorem call_eq_iff (f g : Image) :
  __call__ f = __call__ g ↔ _storage_dtype f = _storage_dtype g.
Proof.
  split.
  - intros H. apply (f_equal storage_dtype) in H. cbn in H. by inversion H.
  - unfold __call__. by intros ->.
Qed.

(** Which physical type [__init__] picks: the string type for ["string"]
    alone, the binary type for ["bytes"] alone, and the path and bytes
    struct for every other argument, a shape it does not know included. *)
Theorem init_storage_type_iff (v : py_value) :
  (storage_type (ImageExtensionType.__init__ v) = pa_string ↔ v = VStr "string") ∧
  (storage_type (ImageExtensionType.__init__ v) = pa_binary ↔ v = VStr "bytes") ∧
  (storage_type (ImageExtensionType.__init__ v) =
     pa_struct [("path", pa_string); ("bytes", pa_binary)] ↔
   v ≠ VStr "string" ∧ v ≠ VStr "bytes").
Proof.
  unfold ImageExtensionType.__init__. cbn [storage_type].
  destruct v as [|z|s|b|a|i|l|d]; cbn [py_eq_str];
    try (split; [|split]; split; first [done | by intros [??] | by intros _; split]).
  destruct (bool_decide_reflect (s = "string")) as [->|Hs].
  { split; [|split]; split; try done. by intros [??]. }
  destruct (bool_decide_reflect (s = "bytes")) as [->|Hb].
  { split; [|split]; split; try done. by intros [??]. }
  split; [|split]; split; try done.
  - intros [=]. done.
  - intros [=]. done.
  - intros _. split; intros [=]; done.
Qed.

(** What [__call__] builds after a value has been encoded: the binary type
    after bytes or an array, the struct after a dict, and after any other
    value what it would have built before. *)
Theorem call_after_encode_example (self : Image) :
  (∀ b, storage_type (__call__ (encode_example self (VBytes b)).1) = pa_binary) ∧
  (∀ a, storage_type (__call__ (encode_example self (VNdarray a)).1) = pa_binary) ∧
  (∀ d, storage_type (__call__ (encode_example self (VDict d)).1) =
        pa_struct [("path", pa_string); ("bytes", pa_binary)]) ∧
  (∀ v, isinstance_bytes v || isinstance_ndarray v || isinstance_dict v = false →
        __call__ (encode_example self v).1 = __call__ self).
Proof.
  split; [done|]. split; [done|]. split; [done|].
  intros v Hv. unfold encode_example.
  destruct (isinstance_bytes v || isinstance_ndarray v); [done|].
  cbn in Hv. by rewrite Hv.
Qed.

Lemma call_after_encode_example_witness :
  __call__ (encode_example (set_storage_dtype Image_default "struct")
              (VStr "photo.png")).1 =
  __call__ (set_storage_dtype Image_default "struct").
Proof.
  destruct (call_after_encode_example (set_storage_dtype Image_default "struct"))
    as (_ & _ & _ & Hother).
  apply (Hother (VStr "photo.png")). reflexivity.
Defined.

(** ** [decode_example], branch by branch *)

(** Bytes are decoded in memory: the codec is called once, on a stream
    holding exactly these bytes; its exception is the outcome, or the image
    returned is bound to that stream and its pixels load to what the codec
    reads from the bytes; and no file is opened. *)
Theorem decode_example_bytes_in_memory
    (env : collaborators) (self : Image) (b : list byte) (w : world) :
  PIL_installed env = true →
  decode_example env self (VBytes b) w =
    (emit (CodecOpened (MemStream b) (is_ok (PIL_Image_open env b))) w,
     result_map (opened (MemStream b)) (PIL_Image_open env b)) ∧
  (∀ image w',
     decode_example env self (VBytes b) w = (w', inr image) →
     ImageFile_load env image w' = (w', PIL_Image_open env b)) ∧
  no_external_io w (decode_example env self (VBytes b) w).1.
Proof.
  intros HP.
  destruct (decode_example_bytes_outcome env self b w HP) as [Hrun Hload].
  split; [done|]. split; [done|].
  rewrite decode_example_bytes_run by done.
  apply no_external_io_PIL_open_mem.
Qed.

Lemma decode_example_bytes_in_memory_witness :
  PIL_installed Toy.env = true ∧
  decode_example Toy.env Image_default (VBytes [xff; x07]) Toy.world0 =
    (emit (CodecOpened (MemStream [xff; x07]) true) Toy.world0,
     inr (mkImageFile (MemStream [xff; x07]) (Some "JPEG") "L" (1, 1))).
Proof.
  split; [reflexivity|].
  exact (proj1 (decode_example_bytes_in_memory
                  Toy.env Image_default [xff; x07] Toy.world0 eq_refl)).
Defined.

(** A path that [xopen] cannot open: the exception of [xopen] is the
    outcome, unchanged; no stream was acquired, so none is released, and
    the codec is not called. *)
Theorem decode_example_str_unreadable
    (env : collaborators) (self : Image) (path : string) (w : world) (e : exn) :
  PIL_installed env = true →
  xopen env path "rb" = inl e →
  (decode_example env self (VStr path) w).2 = inl e ∧
  live (decode_example env self (VStr path) w).1 = live w ∧
  fresh (decode_example env self (VStr path) w).1 = fresh w ∧
  trace (decode_example env self (VStr path) w).1 = trace w ++ [OpenFailed path].
Proof.
  intros HP Hx. by rewrite (decode_example_str_failed env self path w e).
Qed.

Lemma decode_example_str_unreadable_witness :
  PIL_installed Toy.env = true ∧
  xopen Toy.env "nowhere.png" "rb" = inl (FileNotFoundError "nowhere.png") ∧
  (decode_example Toy.env Image_default (VStr "nowhere.png") Toy.world0).2 =
    inl (FileNotFoundError "nowhere.png").
Proof.
  split; [reflexivity|]. split; [reflexivity|].
  exact (proj1 (decode_example_str_unreadable
                  Toy.env Image_default "nowhere.png" Toy.world0
                  (FileNotFoundError "nowhere.png") eq_refl eq_refl)).
Defined.

(** What the three shapes share and where they part. A dict with the bytes
    [c] under [bytes] decodes exactly as the bytes [c] do. A path whose file
    holds [c] has the same outcome as far as the header goes: the same
    exception of the codec, or an image of the same format, mode and size;
    but its image is bound to the file stream, not to a stream in memory. *)
Theorem decode_example_shapes_same_header
    (env : collaborators) (self : Image)
    (path : string) (c : list byte) (d : gmap string py_value) (w : world) :
  PIL_installed env = true →
  xopen env path "rb" = inr c →
  d !! "bytes" = Some (VBytes c) →
  decode_example env self (VDict d) w = decode_example env self (VBytes c) w ∧
  result_map (λ image, (file_format image, file_mode image, file_size image))
             (decode_example env self (VStr path) w).2 =
  result_map (λ image, (file_format image, file_mode image, file_size image))
             (decode_example env self (VBytes c) w).2 ∧
  (∀ image, (decode_example env self (VStr path) w).2 = inr image →
            fp image = FileStream (fresh w) c) ∧
  (∀ image, (decode_example env self (VBytes c) w).2 = inr image →
            fp image = MemStream c).
Proof.
  intros HP Hx Hd.
  rewrite (decode_example_str_opened env self path w c) by done.
  rewrite decode_example_dict_run, decode_example_bytes_run by done.
  rewrite Hd. cbn [BytesIO]. rewrite PIL_open_mem. cbn [snd].
  split; [done|]. split; [by destruct (PIL_Image_open env c)|].
  split; intros image Himage; by apply result_map_opened_inr in Himage as [? _].
Qed.

Lemma decode_example_shapes_same_header_witness :
  decode_example Toy.env Image_default (VDict record_b) Toy.world0 =
    decode_example Toy.env Image_default (VBytes [x89; x2a]) Toy.world0 ∧
  result_map (λ image, (file_format image, file_mode image, file_size image))
             (decode_example Toy.env Image_default (VStr "photo.png") Toy.world0).2 =
  result_map (λ image, (file_format image, file_mode image, file_size image))
             (decode_example Toy.env Image_default (VBytes [x89; x2a]) Toy.world0).2.
Proof.
  destruct (decode_example_shapes_same_header Toy.env Image_default
              "photo.png" [x89; x2a] record_b Toy.world0 eq_refl eq_refl eq_refl)
    as (Hdict & Hheader & _).
  by split.
Defined.

(** Without Pillow nothing is decoded and nothing is tried: whatever the
    value (a path, bytes, a dict, a value of another class), the call
    raises the [ImportError] of the guarded import, before any file is
    opened. *)
Theorem decode_example_needs_PIL
    (env : collaborators) (self : Image) (v : py_value) (w : world) :
  PIL_installed env = false →
  decode_example env self v w =
    (w, inl (ImportError "To support decoding images, please install 'Pillow'.")).
Proof. apply decode_example_no_PIL. Qed.

Lemma decode_example_needs_PIL_witness :
  PIL_installed Toy.env_no_PIL = false ∧
  decode_example Toy.env_no_PIL Image_default (VStr "photo.png") Toy.world0 =
    (Toy.world0,
     inl (ImportError "To support decoding images, please install 'Pillow'.")).
Proof.
  split; [reflexivity|].
  exact (decode_example_needs_PIL Toy.env_no_PIL Image_default
           (VStr "photo.png") Toy.world0 eq_refl).
Defined.

(** A dict whose [bytes] entry is not bytes-like and not [None] (a string, a
    number, an image object, a tuple, a dict): [BytesIO] raises a
    [TypeError], which is the outcome; the codec is not called and the world
    is untouched. *)
Theorem decode_example_dict_not_bytes_like
    (env : collaborators) (self : Image) (d : gmap string py_value)
    (v : py_value) (w : world) :
  PIL_installed env = true →
  d !! "bytes" = Some v →
  isinstance_bytes v = false →
  isinstance_ndarray v = false →
  v ≠ VNone →
  ∃ msg, decode_example env self (VDict d) w = (w, inl (TypeError msg)).
Proof.
  intros HP Hd Hb Ha Hn. rewrite decode_example_dict_run by done. rewrite Hd.
  destruct v; try done; cbn; eauto.
Qed.

Lemma decode_example_dict_not_bytes_like_witness :
  ∃ msg,
    decode_example Toy.env Image_default
      (VDict (<["bytes" := VStr "photo.png"]> ∅)) Toy.world0 =
    (Toy.world0, inl (TypeError msg)).
Proof.
  apply (decode_example_dict_not_bytes_like Toy.env Image_default
           (<["bytes" := VStr "photo.png"]> ∅) (VStr "photo.png") Toy.world0);
    [reflexivity | reflexivity | reflexivity | reflexivity | discriminate].
Defined.

(** ** [decode_example] leaks no stream *)

Lemma unreleased_in_memory (held : list nat) (evs : list event) :
  forallb in_memory_event evs = true → unreleased held evs = held.
Proof.
  induction evs as [|e evs IH]; [done|]. cbn.
  intros [He Hevs]%andb_prop.
  destruct e as [p|h p|[h c|c] ok|h]; try done. cbn. by apply IH.
Qed.

Lemma no_external_io_no_leak (w w' : world) :
  world_ok w → no_external_io w w' →
  live w' = live w ∧ world_ok w' ∧ fresh w ≤ fresh w' ∧
  ∃ evs, trace w' = trace w ++ evs ∧ unreleased [] evs = [].
Proof.
  intros Hw (Hlive & Hfresh & evs & Htrace & Hmem).
  split; [done|]. split; [|split; [lia|]].
  - intros h. rewrite Hlive, Hfresh. apply Hw.
  - exists evs. split; [done|]. by apply unreleased_in_memory.
Qed.

(** For every value and every outcome, a call to [decode_example] leaves
    the streams that were open before it, and no other: handles stay below
    [fresh], which never goes back, the trace is only added to, and every
    stream acquired in the call has been released when it returns or
    raises. *)
Theorem decode_example_no_leak
    (env : collaborators) (self : Image) (v : py_value) (w : world) :
  world_ok w →
  live (decode_example env self v w).1 = live w ∧
  world_ok (decode_example env self v w).1 ∧
  fresh w ≤ fresh (decode_example env self v w).1 ∧
  ∃ evs, trace (decode_example env self v w).1 = trace w ++ evs ∧
         unreleased [] evs = [].
Proof.
  intros Hw.
  destruct (PIL_installed env) eqn:HP;
    [|rewrite decode_example_no_PIL by done;
      apply no_external_io_no_leak, no_external_io_refl; done].
  assert (∀ u, decode_example env self u w =
               (w, inl (UnboundLocalError "image")) →
          live (decode_example env self u w).1 = live w ∧
          world_ok (decode_example env self u w).1 ∧
          fresh w ≤ fresh (decode_example env self u w).1 ∧
          ∃ evs, trace (decode_example env self u w).1 = trace w ++ evs ∧
                 unreleased [] evs = []) as Hother.
  { intros u ->. apply no_external_io_no_leak, no_external_io_refl; done. }
  destruct v as [|z|path|b|a|i|l|d];
    try (apply Hother; unfold decode_example, bind, import_PIL, ret, raise;
         by rewrite HP).
  - destruct (xopen env path "rb") as [e|c] eqn:Hx.
    + rewrite (decode_example_str_failed env self path w e) by done.
      cbn. split; [done|]. split; [done|]. split; [lia|].
      by exists [OpenFailed path].
    + rewrite (decode_example_str_opened env self path w c) by done.
      cbn [fst live fresh trace].
      assert (fresh w ∉ live w) as Hfresh by (intros Hin; apply Hw in Hin; lia).
      split; [set_solver|]. split; [|split; [lia|]].
      * intros k Hk. cbn in *. assert (k ∈ live w) as Hk' by set_solver.
        apply Hw in Hk'. lia.
      * eexists. split; [done|]. cbn.
        by rewrite decide_False by (intros Hne; by apply Hne).
  - apply no_external_io_no_leak; [done|].
    rewrite decode_example_bytes_run by done.
    apply no_external_io_PIL_open_mem.
  - apply no_external_io_no_leak; [done|].
    apply decode_example_dict_no_external_io.
Qed.

(** A world with a stream left open by someone else. *)
Lemma world_busy_ok : world_ok {| live := {[0; 3]}; fresh := 5; trace := [] |}.
Proof.
  intros h Hh. cbn in *.
  apply elem_of_union in Hh as [Hh|Hh]; apply elem_of_singleton in Hh; lia.
Qed.

Lemma decode_example_no_leak_witness :
  live (decode_example Toy.env Image_default (VStr "photo.png")
          {| live := {[0; 3]}; fresh := 5; trace := [] |}).1 = {[0; 3]}.
Proof.
  exact (proj1 (decode_example_no_leak Toy.env Image_default (VStr "photo.png")
                  {| live := {[0; 3]}; fresh := 5; trace := [] |} world_busy_ok)).
Defined.

(** ** [encode_list_of_images] *)

Section EncodeList.

Context (env : collaborators).

Lemma encode_list_of_images_cons (image : PIL_Image) (images : list PIL_Image) :
  encode_list_of_images env (image :: images) =
    match image_to_bytes env image with
    | inl e => inl e
    | inr b =>
        match encode_list_of_images env images with
        | inl e => inl e
        | inr bs => inr (b :: bs)
        end
    end.
Proof. reflexivity. Qed.

(** The call returns a list exactly when every image encodes, and the list
    is then the encodings of the images, one for one and in their order; in
    particular it is as long as the input. *)
Theorem encode_list_of_images_ok (images : list PIL_Image) (bs : list (list byte)) :
  (encode_list_of_images env images = inr bs ↔
   Forall2 (λ image b, image_to_bytes env image = inr b) images bs) ∧
  (encode_list_of_images env images = inr bs → length bs = length images).
Proof.
  assert (encode_list_of_images env images = inr bs ↔
          Forall2 (λ image b, image_to_bytes env image = inr b) images bs) as Hiff.
  { revert bs. induction images as [|image images IH]; intros bs.
    - cbn. split.
      + intros [= <-]. constructor.
      + intros H. by inversion H.
    - rewrite encode_list_of_images_cons. split.
      + destruct (image_to_bytes env image) as [e|b] eqn:Hb; [done|].
        destruct (encode_list_of_images env images) as [e|bs'] eqn:Hbs; [done|].
        intros [= <-]. constructor; [done|]. by apply IH.
      + intros H. inversion H as [|? b ? bs' Hb Hbs]; subst.
        rewrite Hb. apply IH in Hbs. by rewrite Hbs. }
  split; [done|].
  intros H. apply Hiff in H. symmetry. by eapply Forall2_length.
Qed.

(** The call raises exactly when some image fails to encode, and what it
    raises is the exception of the first such image: the images before it
    encoded, and their bytes are dropped with the call. *)
Theorem encode_list_of_images_err (images : list PIL_Image) (e : exn) :
  encode_list_of_images env images = inl e ↔
  ∃ before image after,
    images = before ++ image :: after ∧
    Forall (λ i, is_ok (image_to_bytes env i) = true) before ∧
    image_to_bytes env image = inl e.
Proof.
  induction images as [|image images IH].
  - cbn. split; [done|]. intros (before & i & after & Heq & _).
    by destruct before.
  - rewrite encode_list_of_images_cons. split.
    + destruct (image_to_bytes env image) as [e'|b] eqn:Hb.
      * intros [= ->]. by exists [], image, images.
      * destruct (encode_list_of_images env images) as [e'|bs'] eqn:Hbs; [|done].
        intros [= ->]. destruct (proj1 IH eq_refl) as (before & i & after & -> & Hok & Hi).
        exists (image :: before), i, after. split; [done|]. split; [|done].
        constructor; [by rewrite Hb | done].
    + intros (before & i & after & Heq & Hok & Hi).
      destruct before as [|first before]; cbn in Heq; inversion Heq; subst.
      * by rewrite Hi.
      * inversion Hok as [|? ? Hfirst Hrest]; subst.
        destruct (image_to_bytes env first) as [e'|b]; [done|].
        assert (encode_list_of_images env (before ++ i :: after) = inl e) as ->; [|done].
        apply IH. by exists before, i, after.
Qed.

(** The batch round trip. With Pillow importable and a codec whose PNG
    writer and reader lose no pixel of any of the images, the call returns
    a list, and each of its elements decodes to an image that loads, image
    by image and in order, to the pixel content that went in. *)
Theorem encode_list_of_images_roundtrip
    (self : Image) (images : list PIL_Image) (w : world) :
  PIL_installed env = true →
  Forall (png_lossless_on env) images →
  ∃ bs,
    encode_list_of_images env images = inr bs ∧
    Forall2 (λ image b,
               ∃ decoded w' j,
                 decode_example env self (VBytes b) w = (w', inr decoded) ∧
                 ImageFile_load env decoded w' = (w', inr j) ∧
                 pixel_content j = pixel_content image)
            images bs.
Proof.
  intros HP Hall. induction Hall as [|image images Himage _ (bs & Hbs & Hdec)].
  - exists []. split; [done|constructor].
  - destruct Himage as (b & j & Hsave & Hopen & Hpix).
    exists (b :: bs). rewrite encode_list_of_images_cons.
    rewrite image_to_bytes_is_save, Hsave, Hbs. split; [done|].
    constructor; [|done].
    exists (opened (MemStream b) j), (emit (CodecOpened (MemStream b) true) w), j.
    rewrite decode_example_bytes_run, PIL_open_mem by done.
    rewrite Hopen. split; [done|].
    rewrite (ImageFile_load_mem env _ b) by done. by rewrite Hopen.
Qed.

End EncodeList.

Lemma toy_two_pixels_lossless :
  Forall (png_lossless_on Toy.env)
         [Toy.pixel; mkImage (Some "JPEG") "L" (1, 1) [x07]].
Proof.
  constructor; [|constructor; [|constructor]].
  - exists [x89; x2a], (mkImage (Some "PNG") "L" (1, 1) [x2a]). repeat split.
  - exists [x89; x07], (mkImage (Some "PNG") "L" (1, 1) [x07]). repeat split.
Qed.

Lemma encode_list_of_images_roundtrip_witness :
  PIL_installed Toy.env = true ∧
  ∃ bs,
    encode_list_of_images Toy.env
      [Toy.pixel; mkImage (Some "JPEG") "L" (1, 1) [x07]] = inr bs ∧
    Forall2 (λ image b,
               ∃ decoded w' j,
                 decode_example Toy.env Image_default (VBytes b) Toy.world0 =
                   (w', inr decoded) ∧
                 ImageFile_load Toy.env decoded w' = (w', inr j) ∧
                 pixel_content j = pixel_content image)
            [Toy.pixel; mkImage (Some "JPEG") "L" (1, 1) [x07]] bs.
Proof.
  split; [reflexivity|].
  exact (encode_list_of_images_roundtrip Toy.env Image_default
           [Toy.pixel; mkImage (Some "JPEG") "L" (1, 1) [x07]] Toy.world0
           eq_refl toy_two_pixels_lossless).
Defined.

Lemma encode_list_of_images_err_witness :
  encode_list_of_images Toy.env
    [Toy.pixel; mkImage None "RGB" (1, 1) [x01; x02; x03]; Toy.pixel] =
  inl (OSError "cannot write mode").
Proof.
  apply (encode_list_of_images_err Toy.env).
  exists [Toy.pixel], (mkImage None "RGB" (1, 1) [x01; x02; x03]), [Toy.pixel].
  split; [reflexivity|]. split; [|reflexivity].
  constructor; [reflexivity|constructor].
Defined.

Lemma encode_list_of_images_ok_witness :
  encode_list_of_images Toy.env [Toy.pixel; mkImage None "L" (1, 1) [x07]] =
    inr [[x89; x2a]; [x89; x07]].
Proof.
  apply (proj1 (encode_list_of_images_ok Toy.env
                  [Toy.pixel; mkImage None "L" (1, 1) [x07]]
                  [[x89; x2a]; [x89; x07]])).
  constructor; [reflexivity|]. constructor; [reflexivity|]. constructor.
Defined.
